(** * Expenses: the persistence and state core of [src/window.py]

    A shallow embedding of the [ExpensesWindow] class: the in-memory
    document [self.data], the JSON file behind it, the widgets whose state
    the handlers read or write, and the handlers themselves.  A method
    that mutates [self] is a function from window state to window state.
    [load_data], whose exception ends [__init__], returns a [result]; a
    handler that raises is left by the main loop where it stood, so it
    returns the state reached at the raise. *)

From Stdlib Require Import QArith.
From stdpp Require Import base option list gmap strings sorting.
From Stdlib Require Import Ascii.

Local Open Scope Z_scope.

(** ** Python values the program handles *)

Inductive exn := IndexError | ValueError | TypeError.

Inductive result (A : Type) :=
| Ok (a : A)
| Raise (e : exn).
Arguments Ok {A} a.
Arguments Raise {A} e.

Definition result_bind {A B} (r : result A) (k : A → result B) : result B :=
  match r with
  | Ok a => k a
  | Raise e => Raise e
  end.

(** A Python [float]: a binary64 value.  A finite value other than -0.0
    is kept as the rational it is, in lowest terms; [Text.binary64] does
    the rounding. *)
Inductive pyfloat :=
| Finite (q : Q)
| NegZero
| Inf (negative : bool)
| NaN.

(** JSON numbers load as [int] or [float]. *)
Inductive pynum :=
| PInt (z : Z)
| PFloat (f : pyfloat).

(** ** [str.strip], [str.replace] and [float]

    A Python [str] is a sequence of code points.  It is kept here as the
    [string] of its UTF-8 encoding: an ASCII text is the [string] of the
    same characters, and comparing two texts byte by byte compares them
    code point by code point.  A [string] that is not the encoding of a
    text stands for no [str]. *)

Module Text.

Definition byte (c : ascii) : Z := Z.of_nat (nat_of_ascii c).

Definition ascii_of (z : Z) : ascii := ascii_of_nat (Z.to_nat z).

(** The characters of a text: a character's encoding is a byte outside
    128..191 followed by the bytes within 128..191 that come next. *)
Fixpoint chars (l : list ascii) : list (list ascii) :=
  match l with
  | [] => []
  | c :: r =>
      match chars r with
      | (c' :: _) as ch :: rest =>
          if (128 <=? byte c') && (byte c' <? 192) then (c :: ch) :: rest
          else [c] :: ch :: rest
      | rest => [c] :: rest
      end
  end.

(** The code point a character's encoding stands for; U+FFFD for bytes
    that encode none. *)
Definition code_point (ch : list ascii) : Z :=
  let cont c := byte c - 128 in
  let cp :=
    match ch with
    | [a] => if byte a <? 128 then byte a else -1
    | [a; b] =>
        if (192 <=? byte a) && (byte a <? 224)
        then let n := (byte a - 192) * 64 + cont b in
             if 128 <=? n then n else -1
        else -1
    | [a; b; c] =>
        if (224 <=? byte a) && (byte a <? 240)
        then let n := (byte a - 224) * 4096 + cont b * 64 + cont c in
             if (2048 <=? n) && negb ((55296 <=? n) && (n <? 57344)) then n else -1
        else -1
    | [a; b; c; d] =>
        if (240 <=? byte a) && (byte a <? 248)
        then let n := (byte a - 240) * 262144 + cont b * 4096 + cont c * 64 + cont d in
             if (65536 <=? n) && (n <? 1114112) then n else -1
        else -1
    | _ => -1
    end in
  if cp <? 0 then 65533 else cp.

Definition code_points (s : string) : list Z :=
  code_point <$> chars (String.list_ascii_of_string s).

(** The UTF-8 encoding of a code point. *)
Definition encode (cp : Z) : list ascii :=
  if cp <? 128 then [ascii_of cp]
  else if cp <? 2048 then
    [ascii_of (192 + cp / 64); ascii_of (128 + cp mod 64)]
  else if cp <? 65536 then
    [ascii_of (224 + cp / 4096); ascii_of (128 + cp / 64 mod 64);
     ascii_of (128 + cp mod 64)]
  else
    [ascii_of (240 + cp / 262144); ascii_of (128 + cp / 4096 mod 64);
     ascii_of (128 + cp / 64 mod 64); ascii_of (128 + cp mod 64)].

(** The text with the code points [l]. *)
Definition text (l : list Z) : string :=
  String.string_of_list_ascii (l ≫= encode).

(** [str.isspace] for one character, which is what [str.strip] drops:
    TAB..CR, FS..US, the space, U+0085, U+00A0, U+1680, U+2000..U+200A,
    U+2028, U+2029, U+202F, U+205F and U+3000. *)
Definition is_whitespace (cp : Z) : bool :=
  ((9 <=? cp) && (cp <=? 13)) || ((28 <=? cp) && (cp <=? 32))
  || (cp =? 133) || (cp =? 160) || (cp =? 5760)
  || ((8192 <=? cp) && (cp <=? 8202))
  || (cp =? 8232) || (cp =? 8233) || (cp =? 8239) || (cp =? 8287)
  || (cp =? 12288).

Fixpoint lstrip (l : list (list ascii)) : list (list ascii) :=
  match l with
  | ch :: r => if is_whitespace (code_point ch) then lstrip r else l
  | [] => []
  end.

(** [s.strip()] *)
Definition strip (s : string) : string :=
  String.string_of_list_ascii
    (concat (reverse (lstrip (reverse (lstrip
       (chars (String.list_ascii_of_string s))))))).

(** [s.replace(old, new)] for one-character ASCII [old] and [new]. *)
Definition replace (old new : ascii) (s : string) : string :=
  String.string_of_list_ascii
    ((λ c, if Ascii.eqb c old then new else c) <$> String.list_ascii_of_string s).

(** *** [float(s)]

    CPython first rewrites the text in ASCII, then drops the surrounding
    ASCII white space and reads
    [[sign] (floatnumber | "inf" | "infinity" | "nan")]. *)

(** The digit zero of each run of ten decimal digits (general category
    Nd) in Unicode 14.0, the character database of CPython 3.11. *)
Definition decimal_zeros : list Z :=
  [48; 1632; 1776; 1984; 2406; 2534; 2662; 2790; 2918; 3046; 3174; 3302;
   3430; 3558; 3664; 3792; 3872; 4160; 4240; 6112; 6160; 6470; 6608; 6784;
   6800; 6992; 7088; 7232; 7248; 42528; 43216; 43264; 43472; 43504; 43600;
   44016; 65296; 66720; 68912; 69734; 69872; 69942; 70096; 70384; 70736;
   70864; 71248; 71360; 71472; 71904; 72016; 72784; 73040; 73120; 92768;
   92864; 93008; 120782; 120792; 120802; 120812; 120822; 123200; 123632;
   125264; 130032].

(** [Py_UNICODE_TODECIMAL] *)
Definition to_decimal (cp : Z) : option Z :=
  (λ zero, cp - zero) <$> List.find (λ zero, (zero <=? cp) && (cp <=? zero + 9))
                                    decimal_zeros.

(** [_PyUnicode_TransformDecimalAndSpaceToASCII] on a text that is not all
    ASCII: white space becomes a space, a decimal digit the ASCII digit,
    and the first character that is neither ends the text with a "?". *)
Fixpoint transform (l : list Z) : list ascii :=
  match l with
  | [] => []
  | cp :: r =>
      if cp <? 127 then ascii_of cp :: transform r
      else if is_whitespace cp then " "%char :: transform r
      else
        match to_decimal cp with
        | Some d => ascii_of (48 + d) :: transform r
        | None => ["?"%char]
        end
  end.

Definition to_ascii (s : string) : list ascii :=
  if forallb (λ cp, cp <? 128) (code_points s) then String.list_ascii_of_string s
  else transform (code_points s).

(** [Py_ISSPACE]: TAB..CR and the space. *)
Definition is_c_space (c : ascii) : bool :=
  ((9 <=? byte c) && (byte c <=? 13)) || (byte c =? 32).

Fixpoint skip_spaces (l : list ascii) : list ascii :=
  match l with
  | c :: r => if is_c_space c then skip_spaces r else l
  | [] => []
  end.

Definition is_digit (c : ascii) : bool := (48 <=? byte c) && (byte c <=? 57).

Definition digit_value (c : ascii) : Z := byte c - 48.

Definition lower (c : ascii) : ascii :=
  if (65 <=? byte c) && (byte c <=? 90) then ascii_of (byte c + 32) else c.

(** The tail [(["_"] digit)*] of a [digitpart]: the digits read and the
    text left over. *)
Fixpoint digitpart_tail (l : list ascii) : list ascii * list ascii :=
  match l with
  | c :: r =>
      if is_digit c then
        let '(ds, rest) := digitpart_tail r in (c :: ds, rest)
      else if Ascii.eqb c "_" then
        match r with
        | c' :: r' =>
            if is_digit c' then
              let '(ds, rest) := digitpart_tail r' in (c' :: ds, rest)
            else ([], l)
        | [] => ([], l)
        end
      else ([], l)
  | [] => ([], [])
  end.

(** [digitpart ::= digit (["_"] digit)*] *)
Definition digitpart (l : list ascii) : option (list ascii * list ascii) :=
  match l with
  | c :: r =>
      if is_digit c then
        let '(ds, rest) := digitpart_tail r in Some (c :: ds, rest)
      else None
  | [] => None
  end.

Definition digits_value (ds : list ascii) : Z :=
  foldl (λ acc c, 10 * acc + digit_value c) 0 ds.

(** [number ::= [digitpart] "." digitpart | digitpart ["."]]: the digits
    before and after the point, and the text left over. *)
Definition number (l : list ascii)
  : option (list ascii * list ascii * list ascii) :=
  match digitpart l with
  | Some (ip, rest) =>
      match rest with
      | "."%char :: rest' =>
          match digitpart rest' with
          | Some (fp, rest'') => Some (ip, fp, rest'')
          | None => Some (ip, [], rest')
          end
      | _ => Some (ip, [], rest)
      end
  | None =>
      match l with
      | "."%char :: rest =>
          match digitpart rest with
          | Some (fp, rest') => Some ([], fp, rest')
          | None => None
          end
      | _ => None
      end
  end.

(** [sign ::= "+" | "-"]: whether the text is negated, and the rest. *)
Definition sign (l : list ascii) : bool * list ascii :=
  match l with
  | "-"%char :: r => (true, r)
  | "+"%char :: r => (false, r)
  | _ => (false, l)
  end.

(** [exponent ::= ("e" | "E") [sign] digitpart], or nothing; the text
    must end there. *)
Definition exponent (l : list ascii) : option Z :=
  match l with
  | [] => Some 0
  | c :: r =>
      if Ascii.eqb (lower c) "e" then
        let '(neg, r') := sign r in
        match digitpart r' with
        | Some (ds, []) =>
            Some (if neg then - digits_value ds else digits_value ds)
        | _ => None
        end
      else None
  end.

(** The integer nearest to [num / den], the even one of two that are
    equally near; [0 ≤ num] and [0 < den]. *)
Definition round_half_even (num den : Z) : Z :=
  let q := num / den in
  let r := num mod den in
  if 2 * r <? den then q
  else if den <? 2 * r then q + 1
  else if Z.even q then q else q + 1.

(** The rational [m * 2 ^ e], in lowest terms. *)
Definition binary (m e : Z) : Q :=
  Qred (if 0 <=? e then Qmake (m * 2 ^ e) 1
        else Qmake m (Z.to_pos (2 ^ (- e)))).

(** The binary64 value nearest to [n / d], for [0 < n] and [0 < d], ties
    going to the even significand: a multiple [m * 2 ^ e] of the unit in
    the last place, [2 ^ e], which is [2 ^ -1074] for a subnormal value
    and leaves [m] 53 bits otherwise; [None] when that is [2 ^ 1024] or
    more, which is the overflow to infinity. *)
Definition binary64 (n d : Z) : option Q :=
  let e0 := Z.log2 n - Z.log2 d in
  (* the integer part of the binary logarithm of [n / d] *)
  let lg := if (if 0 <=? e0 then d * 2 ^ e0 <=? n else d <=? n * 2 ^ (- e0))
            then e0 else e0 - 1 in
  let e := Z.max (lg - 52) (-1074) in
  let m := if 0 <=? e then round_half_even n (d * 2 ^ e)
           else round_half_even (n * 2 ^ (- e)) d in
  let v := binary m e in
  if Qle_bool (inject_Z (2 ^ 1024)) v then None else Some v.

(** The [float] that [strtod] returns for the decimal [m * 10 ^ e] with
    [0 ≤ m], negated when [neg]. *)
Definition decimal (neg : bool) (m e : Z) : pyfloat :=
  let zero := if neg then NegZero else Finite (Qmake 0 1) in
  if m =? 0 then zero
  else
    match (if 0 <=? e then binary64 (m * 10 ^ e) 1 else binary64 m (10 ^ (- e))) with
    | None => Inf neg
    | Some v =>
        if Qeq_bool v (Qmake 0 1) then zero else Finite (if neg then Qopp v else v)
    end.

(** [float(s)]; anything it cannot read raises [ValueError].  (CPython
    also refuses a number of more than 10^9 digits.) *)
Definition float (s : string) : result pyfloat :=
  let '(neg, body) := sign (reverse (skip_spaces (reverse (skip_spaces (to_ascii s))))) in
  let word := String.string_of_list_ascii (lower <$> body) in
  if bool_decide (word = "inf" ∨ word = "infinity") then Ok (Inf neg)
  else if bool_decide (word = "nan") then Ok NaN
  else
    match number body with
    | Some (ip, fp, rest) =>
        match exponent rest with
        | Some e => Ok (decimal neg (digits_value (ip ++ fp)) (e - Z.of_nat (length fp)))
        | None => Raise ValueError
        end
    | None => Raise ValueError
    end.

End Text.

(** ** The document [self.data] *)

(** An expense record: the dict [{'amount': .., 'payee': .., 'date': ..}]. *)
Record Expense := mkExpense {
  amount : pynum;
  payee : string;
  date : string;
}.

(** [self.data]: a dict with the three keys it is created with; no method
    adds or removes a key.  [expenses] is a dict from account name to the
    list of its expenses, oldest first; the order of its keys, which the
    program never looks at, is not kept. *)
Record Data := mkData {
  accounts : list string;
  current_account : string;
  expenses : gmap string (list Expense);
}.

Definition set_accounts (a : list string) (d : Data) : Data :=
  mkData a (current_account d) (expenses d).
Definition set_current_account (c : string) (d : Data) : Data :=
  mkData (accounts d) c (expenses d).
Definition set_expenses (e : gmap string (list Expense)) (d : Data) : Data :=
  mkData (accounts d) (current_account d) e.

(** The value [__init__] starts from. *)
Definition default_data : Data := mkData ["Default"] "Default" ∅.

(** ** JSON values: what [json.dump] writes and [json.load] returns *)

Local Unset Elimination Schemes.
Inductive json :=
| JNull
| JBool (b : bool)
| JInt (z : Z)
| JFloat (f : pyfloat)
| JStr (s : string)
| JArr (l : list json)
| JObj (kvs : list (string * json)).
Local Set Elimination Schemes.

Module Json.

(** [d[key]] on the dict [json.load] builds from an object: when a key
    is repeated in the text, the last occurrence is the one kept. *)
Definition lookup (key : string) (kvs : list (string * json)) : option json :=
  foldl (λ acc kv, if decide (kv.1 = key) then Some kv.2 else acc) None kvs.

(** [key in l] for a list [l]: some element is the string [key]. *)
Definition has_str (key : string) (l : list json) : bool :=
  existsb (λ j, match j with JStr s => bool_decide (s = key) | _ => false end) l.

Definition dump_num (n : pynum) : json :=
  match n with
  | PInt z => JInt z
  | PFloat f => JFloat f
  end.

Definition dump_expense (e : Expense) : json :=
  JObj [("amount", dump_num (amount e));
        ("payee", JStr (payee e));
        ("date", JStr (date e))].

(** [json.dump(self.data, ..)]: the keys of [self.data] in the order
    [__init__] created them. *)
Definition dump (d : Data) : json :=
  JObj [("accounts", JArr (JStr <$> accounts d));
        ("current_account", JStr (current_account d));
        ("expenses",
          JObj ((λ kv, (kv.1, JArr (dump_expense <$> kv.2)))
                  <$> map_to_list (expenses d)))].

(** *** Typed views

    Python stores whatever [json.load] returns; the fields of [Data] are
    typed.  The views below read a JSON value at the type of the field it
    is stored in, and are [None] for every other value (an [accounts]
    field that is a number, say): the development makes no statement on
    files of that kind. *)

Definition as_string (j : json) : option string :=
  match j with JStr s => Some s | _ => None end.

Definition as_num (j : json) : option pynum :=
  match j with
  | JInt z => Some (PInt z)
  | JFloat f => Some (PFloat f)
  | _ => None
  end.

Definition as_accounts (j : json) : option (list string) :=
  match j with JArr l => mapM as_string l | _ => None end.

(** An expense record has the keys [amount], [payee], [date] and no
    other. *)
Definition as_expense (j : json) : option Expense :=
  match j with
  | JObj kvs =>
      if forallb (λ kv, bool_decide (kv.1 ∈ ["amount"; "payee"; "date"])) kvs
      then
        a ← lookup "amount" kvs ≫= as_num;
        p ← lookup "payee" kvs ≫= as_string;
        t ← lookup "date" kvs ≫= as_string;
        Some (mkExpense a p t)
      else None
  | _ => None
  end.

Definition as_expense_list (j : json) : option (list Expense) :=
  match j with JArr l => mapM as_expense l | _ => None end.

Definition as_expenses (j : json) : option (gmap string (list Expense)) :=
  match j with
  | JObj kvs =>
      foldl (λ acc kv, m ← acc; l ← as_expense_list kv.2; Some (<[kv.1 := l]> m))
            (Some ∅) kvs
  | _ => None
  end.

End Json.

(** ** [load_data] *)

(** The body of the [try] block, for the value [loaded_data] that
    [json.load] returned.  Every exception raised in it is swallowed by
    [except: pass], leaving [self.data] as it was at that point.  [None]:
    a field value outside the typed views. *)
Definition load_merge (loaded_data : json) (d : Data) : option Data :=
  match loaded_data with
  | JObj kvs =>
      (* if 'accounts' in loaded_data: self.data['accounts'] = .. *)
      d ← match Json.lookup "accounts" kvs with
          | Some v => a ← Json.as_accounts v; Some (set_accounts a d)
          | None => Some d
          end;
      (* if 'current_account' in loaded_data: .. *)
      d ← match Json.lookup "current_account" kvs with
          | Some v => c ← Json.as_string v; Some (set_current_account c d)
          | None => Some d
          end;
      (* if 'expenses' in loaded_data: .. else: a dict is not a list *)
      match Json.lookup "expenses" kvs with
      | Some v => e ← Json.as_expenses v; Some (set_expenses e d)
      | None => Some d
      end
  | JArr l =>
      (* [key in loaded_data] looks for the string among the elements; on a
         hit, [loaded_data[key]] raises TypeError before anything is
         assigned *)
      if Json.has_str "accounts" l || Json.has_str "current_account" l
         || Json.has_str "expenses" l
      then Some d
      else
        (* isinstance(loaded_data, list):
           self.data['expenses']['Default'] = loaded_data *)
        es ← mapM Json.as_expense l;
        Some (set_expenses (<["Default" := es]> (expenses d)) d)
  | JStr _ =>
      (* [key in loaded_data] is a substring test; on a hit the subscript
         raises TypeError, and without one a str is not a list *)
      Some d
  | JNull | JBool _ | JInt _ | JFloat _ =>
      (* 'accounts' in loaded_data raises TypeError *)
      Some d
  end.

(** "Ensure all accounts have expense lists": one turn of the loop. *)
Definition ensure_expense_list (e : gmap string (list Expense)) (account : string)
  : gmap string (list Expense) :=
  match e !! account with
  | Some _ => e
  | None => <[account := []]> e
  end.

(** The two statements after the [try] block; an exception raised here
    leaves [load_data], and [__init__] with it. *)
Definition normalize (d : Data) : result Data :=
  result_bind
    (if decide (current_account d ∈ accounts d) then Ok d
     else
       match accounts d !! 0%nat with
       | Some first => Ok (set_current_account first d)
       | None => Raise IndexError
       end)
    (λ d, Ok (set_expenses (foldl ensure_expense_list (expenses d) (accounts d)) d)).

(** [load_data], run on the document [d].  [file] is what
    [json.load] returns for [self.data_file]; [None] stands for a file
    that does not exist or that [open] or [json.load] fails on. *)
Definition load_data (file : option json) (d : Data) : option (result Data) :=
  d ← match file with
      | Some loaded_data => load_merge loaded_data d
      | None => Some d
      end;
  Some (normalize d).

(** ** The window *)

(** The part of an [ExpensesWindow] the handlers read or write.  The
    total label is left out: its text is a floating-point sum. *)
Record Window := mkWindow {
  data : Data;
  (** contents of [self.data_file]; [None] when there is no such file *)
  data_file : option json;
  (** whether [open(self.data_file, 'w')] succeeds *)
  writable : bool;
  (** the [Gtk.StringList] behind the dropdown *)
  account_list : list string;
  (** the dropdown's [selected] property; [None] is
      [Gtk.INVALID_LIST_POSITION] *)
  selected : option nat;
  (** the rows of [self.payee_store] *)
  payee_store : list string;
  (** the rows of [self.expense_list]: the expense shown and the index its
      delete button passes to [on_delete_expense] *)
  expense_list : list (Expense * Z);
  amount_entry : string;
  payee_entry : string;
  (** headings of the message dialogs presented so far *)
  dialogs : list string;
}.

Definition set_data (d : Data) (w : Window) : Window :=
  mkWindow d (data_file w) (writable w) (account_list w) (selected w)
           (payee_store w) (expense_list w) (amount_entry w) (payee_entry w)
           (dialogs w).
Definition set_data_file (f : option json) (w : Window) : Window :=
  mkWindow (data w) f (writable w) (account_list w) (selected w)
           (payee_store w) (expense_list w) (amount_entry w) (payee_entry w)
           (dialogs w).
Definition set_account_list (l : list string) (w : Window) : Window :=
  mkWindow (data w) (data_file w) (writable w) l (selected w)
           (payee_store w) (expense_list w) (amount_entry w) (payee_entry w)
           (dialogs w).
Definition set_selected (s : option nat) (w : Window) : Window :=
  mkWindow (data w) (data_file w) (writable w) (account_list w) s
           (payee_store w) (expense_list w) (amount_entry w) (payee_entry w)
           (dialogs w).
Definition set_payee_store (l : list string) (w : Window) : Window :=
  mkWindow (data w) (data_file w) (writable w) (account_list w) (selected w)
           l (expense_list w) (amount_entry w) (payee_entry w) (dialogs w).
Definition set_expense_list (l : list (Expense * Z)) (w : Window) : Window :=
  mkWindow (data w) (data_file w) (writable w) (account_list w) (selected w)
           (payee_store w) l (amount_entry w) (payee_entry w) (dialogs w).
Definition set_entries (a p : string) (w : Window) : Window :=
  mkWindow (data w) (data_file w) (writable w) (account_list w) (selected w)
           (payee_store w) (expense_list w) a p (dialogs w).
Definition present_dialog (heading : string) (w : Window) : Window :=
  mkWindow (data w) (data_file w) (writable w) (account_list w) (selected w)
           (payee_store w) (expense_list w) (amount_entry w) (payee_entry w)
           (dialogs w ++ [heading]).

(** [save_data]: a failure to write is printed and nothing else happens. *)
Definition save_data (w : Window) : Window :=
  if writable w then set_data_file (Some (Json.dump (data w))) w else w.

(** [get_current_expenses]: the list returned, and [self.data] after the
    call.  The list returned is the one stored in the dict, so what a
    caller appends to or pops from it is written back under
    [current_account] (see [store_current_expenses]). *)
Definition get_current_expenses (d : Data) : list Expense * Data :=
  match expenses d !! current_account d with
  | Some l => (l, d)
  | None => ([], set_expenses (<[current_account d := []]> (expenses d)) d)
  end.

Definition store_current_expenses (l : list Expense) (d : Data) : Data :=
  set_expenses (<[current_account d := l]> (expenses d)) d.

(** The set [payees] built by the two nested loops of
    [update_payee_suggestions]. *)
Definition collect_payees (e : gmap string (list Expense)) : gset string :=
  list_to_set (mjoin ((λ kv, payee <$> kv.2) <$> map_to_list e)).

(** [sorted(payees)]: strings compare character by character, by code. *)
Definition sorted (s : gset string) : list string :=
  merge_sort String.le (elements s).

Definition update_payee_suggestions (w : Window) : Window :=
  set_payee_store (sorted (collect_payees (expenses (data w)))) w.

(** The rows [update_expense_list] appends:
    [for i, expense in enumerate(reversed(expenses))] with the index
    [len(expenses) - 1 - i]. *)
Definition expense_rows (l : list Expense) : list (Expense * Z) :=
  imap (λ i expense, (expense, Z.of_nat (length l) - 1 - Z.of_nat i)) (reverse l).

Definition update_expense_list (w : Window) : Window :=
  let '(l, d) := get_current_expenses (data w) in
  set_expense_list (expense_rows l) (set_data d w).

(** [update_total]: of its effects only the call of
    [get_current_expenses] is kept. *)
Definition update_total (w : Window) : Window :=
  set_data (get_current_expenses (data w)).2 w.

(** [on_account_changed]: [self.data['accounts'][selected]] raises
    IndexError past the end of the list, before anything is written. *)
Definition on_account_changed (w : Window) : Window :=
  match selected w with
  | None => w
  | Some i =>
      match accounts (data w) !! i with
      | Some account =>
          update_total
            (update_expense_list
               (save_data (set_data (set_current_account account (data w)) w)))
      | None => w
      end
  end.

(** [self.account_dropdown.set_selected(position)].  The toolkit keeps
    [selected] within the model (a position past its end becomes
    [INVALID_LIST_POSITION]) and emits [notify::selected], which
    [__init__] connects to [on_account_changed], when the property
    changes and only then. *)
Definition dropdown_set_selected (position : nat) (w : Window) : Window :=
  let new := if decide (position < length (account_list w))%nat
             then Some position else None in
  if decide (selected w = new) then w
  else on_account_changed (set_selected new w).

(** [l.index(x)] *)
Definition index (x : string) (l : list string) : option nat :=
  fst <$> list_find (λ y, y = x) l.

(** The statements of [on_add_account_response] up to and including
    [self.save_data()].  Appending a row to the dropdown's model does not
    move its selection. *)
Definition create_account (account_name : string) (w : Window) : Window :=
  let d := data w in
  let d := set_accounts (accounts d ++ [account_name]) d in
  let d := set_expenses (<[account_name := []]> (expenses d)) d in
  save_data (set_account_list (account_list w ++ [account_name]) (set_data d w)).

(** [on_add_account_response(dialog, response, entry)], with the text of
    [entry]. *)
Definition on_add_account_response (response text : string) (w : Window) : Window :=
  if decide (response = "add") then
    let account_name := Text.strip text in
    if decide (account_name ≠ "" ∧ account_name ∉ accounts (data w)) then
      let w := create_account account_name w in
      (* Select the new account *)
      match index account_name (accounts (data w)) with
      | Some i => dropdown_set_selected i w
      | None => w
      end
    else w
  else w.

(** [on_add_expense]; [now] is
    [datetime.now().strftime('%Y-%m-%d %H:%M')]. *)
Definition on_add_expense (now : string) (w : Window) : Window :=
  let amount_text := Text.strip (amount_entry w) in
  let payee_text := Text.strip (payee_entry w) in
  if decide (amount_text = "" ∨ payee_text = "") then w
  else
    match Text.float (Text.replace "," "." amount_text) with
    | Ok amount =>
        let expense := mkExpense (PFloat amount) payee_text now in
        let '(l, d) := get_current_expenses (data w) in
        let w := set_data (store_current_expenses (l ++ [expense]) d) w in
        let w := save_data w in
        let w := update_payee_suggestions w in
        let w := update_expense_list w in
        let w := update_total w in
        set_entries "" "" w
    | Raise _ =>
        (* except ValueError *)
        present_dialog "Invalid Amount" w
    end.

(** [on_delete_expense(button, index)] *)
Definition on_delete_expense (index : Z) (w : Window) : Window :=
  let '(l, d) := get_current_expenses (data w) in
  let w := set_data d w in
  if decide (0 ≤ index < Z.of_nat (length l)) then
    let w := set_data (store_current_expenses (delete (Z.to_nat index) l) d) w in
    let w := save_data w in
    let w := update_expense_list w in
    let w := update_total w in
    update_payee_suggestions w
  else w.

(** [setup_account_dropdown]: the model is filled from the accounts and
    the current account selected; [on_account_changed] is connected only
    afterwards, so nothing else runs. *)
Definition setup_account_dropdown (w : Window) : Window :=
  let l := accounts (data w) in
  set_selected
    (match index (current_account (data w)) l with
     | Some i => Some i
     | None => if decide (l = []) then None else Some 0%nat
     end)
    (set_account_list l w).

(** [__init__] for a data file with the given contents. *)
Definition init (file : option json) (can_write : bool) : option (result Window) :=
  r ← load_data file default_data;
  Some (result_bind r (λ d,
    let w := mkWindow d file can_write [] None [] [] "" "" [] in
    let w := update_payee_suggestions w in
    let w := setup_account_dropdown w in
    let w := update_expense_list w in
    Ok (update_total w))).

(** What the user can do with the window once it is shown. *)
Inductive action :=
| Respond (response text : string)  (* close the account dialog *)
| SelectAccount (position : nat)    (* pick a row of the dropdown *)
| AddExpense (amount_text payee_text now : string)
| DeleteExpense (index : Z).

Definition step (w : Window) (a : action) : Window :=
  match a with
  | Respond response text => on_add_account_response response text w
  | SelectAccount position =>
      if decide (position < length (account_list w))%nat
      then dropdown_set_selected position w else w
  | AddExpense amount_text payee_text now =>
      on_add_expense now (set_entries amount_text payee_text w)
  | DeleteExpense index => on_delete_expense index w
  end.

Definition run (acts : list action) (w : Window) : Window := foldl step w acts.

(** ** Invariants of the document *)

Definition current_in_accounts (d : Data) : Prop :=
  current_account d ∈ accounts d.

Definition accounts_covered (d : Data) : Prop :=
  ∀ a, a ∈ accounts d → is_Some (expenses d !! a).

(** (a) and (b): what normalization establishes. *)
Definition normalized (d : Data) : Prop :=
  current_in_accounts d ∧ accounts_covered d.

(** (a), (b) and (c). *)
Definition invariant (d : Data) : Prop :=
  current_in_accounts d ∧ accounts_covered d ∧ NoDup (accounts d).

(** The widgets agree with the document: the dropdown lists the accounts
    and has one of them selected. *)
Definition in_sync (w : Window) : Prop :=
  account_list w = accounts (data w) ∧
  ∃ i, selected w = Some i ∧ (i < length (account_list w))%nat.

(** [keeps_accounts d d']: from [d] to [d'] the accounts and the current
    account are the same and no expense list went away. *)
Definition keeps_accounts (d d' : Data) : Prop :=
  accounts d' = accounts d ∧ current_account d' = current_account d ∧
  ∀ a, is_Some (expenses d !! a) → is_Some (expenses d' !! a).

(** The document left behind by the two normalization statements, also
    when the first of them raised. *)
Definition normalize_state (d : Data) : Data :=
  match normalize d with
  | Ok d' => d'
  | Raise _ => d
  end.

(** The record [on_add_expense] builds from the two entry texts, when it
    builds one. *)
Definition new_expense (amount_text payee_text now : string) : option Expense :=
  if decide (Text.strip amount_text = "" ∨ Text.strip payee_text = "") then None
  else
    match Text.float (Text.replace "," "." (Text.strip amount_text)) with
    | Ok amount => Some (mkExpense (PFloat amount) (Text.strip payee_text) now)
    | Raise _ => None
    end.

(** The window [__init__] builds when there is no data file. *)
Definition fresh_window : Window :=
  mkWindow (mkData ["Default"] "Default" {["Default" := []]})
           None true ["Default"] (Some 0%nat) [] [] "" "" [].

(** * Proofs *)

(** ** The functions on small inputs *)

Example strip_examples :
  Text.strip "  Cash " = "Cash" ∧ Text.strip " a b " = "a b" ∧ Text.strip " " = "" ∧
  (* U+00A0 Cash U+2003 U+3000; U+00E9 and U+200B are no white space *)
  Text.strip (Text.text [160; 67; 97; 115; 104; 8195; 12288]) = "Cash" ∧
  Text.strip (Text.text [160; 133; 10]) = "" ∧
  Text.strip (Text.text [32; 233; 8203; 32]) = Text.text [233; 8203].
Proof. split_and!; reflexivity. Qed.

Example float_accepts :
  Text.float "12.50" = Ok (Finite (Qmake 25 2)) ∧
  Text.float " -1_000.5e1 " = Ok (Finite (Qmake (-10005) 1)) ∧
  Text.float ".5" = Ok (Finite (Qmake 1 2)) ∧
  Text.float "5." = Ok (Finite (Qmake 5 1)) ∧
  Text.float "+1E3" = Ok (Finite (Qmake 1000 1)) ∧
  Text.float "-0" = Ok NegZero ∧
  Text.float "-Infinity" = Ok (Inf true) ∧
  Text.float "NaN" = Ok NaN ∧
  (* Arabic-Indic 1 2 . 5 between U+00A0 and U+2003 *)
  Text.float (Text.text [160; 1633; 1634; 46; 1637; 8195]) = Ok (Finite (Qmake 25 2)).
Proof. split_and!; vm_compute; reflexivity. Qed.

(** Rounding to binary64: 0.1 is the nearest multiple of 2^-56; halfway
    between two neighbours the even significand wins; past the largest
    value comes infinity, and below half the smallest, zero. *)
Example float_rounds :
  Text.float "0.1" = Ok (Finite (Qmake 3602879701896397 36028797018963968)) ∧
  Text.float "9007199254740993" = Ok (Finite (Qmake 9007199254740992 1)) ∧
  Text.float "9007199254740995" = Ok (Finite (Qmake 9007199254740996 1)) ∧
  Text.float "1.7976931348623157e308" = Ok (Finite (Qmake (2 ^ 1024 - 2 ^ 971) 1)) ∧
  Text.float "1.7976931348623159e308" = Ok (Inf false) ∧
  Text.float "-1e999" = Ok (Inf true) ∧
  Text.float "5e-324" = Ok (Finite (Qmake 1 (2 ^ 1074))) ∧
  Text.float "2e-324" = Ok (Finite (Qmake 0 1)) ∧
  Text.float "-1e-999" = Ok NegZero.
Proof. split_and!; vm_compute; reflexivity. Qed.

Example float_rejects :
  Forall (λ s, Text.float s = Raise ValueError)
         ["abc"; ""; "  "; "12,50"; "."; "1__0"; "1_"; "_1"; "1e"; "1.2.3"; "1 2";
          "--1"; "0x10"; "infinit"; "n an";
          (* FS is white space for strip, not for float *)
          String "028" "1";
          (* superscript two is a digit, not a decimal digit *)
          Text.text [49; 178]].
Proof. repeat constructor. Qed.

(** A file with only an accounts field: the current account, "Default",
    is not among them, so the first one takes its place, and each gets an
    empty list. *)
Example load_data_accounts_only :
  load_data (Some (JObj [("accounts", JArr [JStr "Cash"; JStr "Card"])])) default_data
  = Some (Ok (mkData ["Cash"; "Card"] "Cash" {["Cash" := []; "Card" := []]})).
Proof. reflexivity. Qed.

(** A file the [try] block raises on leaves the defaults. *)
Example load_data_swallowed :
  load_data (Some (JArr [JStr "expenses"])) default_data
  = Some (Ok (mkData ["Default"] "Default" {["Default" := []]})) ∧
  load_data (Some (JInt 5)) default_data
  = Some (Ok (mkData ["Default"] "Default" {["Default" := []]})) ∧
  load_data None default_data
  = Some (Ok (mkData ["Default"] "Default" {["Default" := []]})).
Proof. split_and!; reflexivity. Qed.

Example session :
  let w := run [Respond "add" " Cash ";
                AddExpense "12,50" "Coffee Shop" "2026-01-15 09:30";
                SelectAccount 0;
                AddExpense "abc" "Bakery" "2026-01-16 12:00";
                AddExpense "3" "Bakery" "2026-01-16 12:01";
                DeleteExpense 7] fresh_window in
  accounts (data w) = ["Default"; "Cash"] ∧
  current_account (data w) = "Default" ∧
  expenses (data w) !! "Cash"
  = Some [mkExpense (PFloat (Finite (Qmake 25 2))) "Coffee Shop" "2026-01-15 09:30"] ∧
  expenses (data w) !! "Default"
  = Some [mkExpense (PFloat (Finite (Qmake 3 1))) "Bakery" "2026-01-16 12:01"] ∧
  payee_store w = ["Bakery"; "Coffee Shop"] ∧
  dialogs w = ["Invalid Amount"] ∧
  data_file w = Some (Json.dump (data w)).
Proof. vm_compute. split_and!; reflexivity. Qed.

(** ** Window fields through the helpers *)

Lemma set_data_id w : set_data (data w) w = w.
Proof. by destruct w. Qed.

Lemma set_expenses_id d : set_expenses (expenses d) d = d.
Proof. by destruct d. Qed.

Lemma data_save_data w : data (save_data w) = data w.
Proof. unfold save_data. by destruct (writable w). Qed.

Lemma data_update_payee_suggestions w : data (update_payee_suggestions w) = data w.
Proof. done. Qed.

Lemma data_update_expense_list w :
  data (update_expense_list w) = (get_current_expenses (data w)).2.
Proof. unfold update_expense_list. by destruct (get_current_expenses (data w)). Qed.

Lemma data_update_total w :
  data (update_total w) = (get_current_expenses (data w)).2.
Proof. done. Qed.

Lemma widgets_save_data w :
  account_list (save_data w) = account_list w ∧ selected (save_data w) = selected w.
Proof. unfold save_data. by destruct (writable w). Qed.

Lemma widgets_update_expense_list w :
  account_list (update_expense_list w) = account_list w ∧
  selected (update_expense_list w) = selected w.
Proof. unfold update_expense_list. by destruct (get_current_expenses (data w)). Qed.

Lemma get_current_expenses_present d l :
  expenses d !! current_account d = Some l → get_current_expenses d = (l, d).
Proof. unfold get_current_expenses. by intros ->. Qed.

(** After [get_current_expenses] the current account has the list
    returned. *)
Lemma get_current_expenses_lookup d :
  expenses (get_current_expenses d).2 !! current_account d
  = Some (get_current_expenses d).1.
Proof.
  unfold get_current_expenses.
  destruct (expenses d !! current_account d) eqn:E; simpl; [done|].
  apply lookup_insert_eq.
Qed.

Lemma store_current_expenses_present l d :
  get_current_expenses (store_current_expenses l d) = (l, store_current_expenses l d).
Proof. apply get_current_expenses_present. simpl. apply lookup_insert_eq. Qed.

Lemma get_current_expenses_created a account_name e :
  get_current_expenses (mkData a account_name (<[account_name := []]> e))
  = ([], mkData a account_name (<[account_name := []]> e)).
Proof. apply get_current_expenses_present. apply lookup_insert_eq. Qed.

Lemma get_current_expenses_normalized d :
  normalized d → (get_current_expenses d).2 = d.
Proof.
  intros [Hc Ha]. destruct (Ha _ Hc) as [l Hl].
  by rewrite (get_current_expenses_present _ _ Hl).
Qed.

(** ** Handlers that leave the accounts alone *)

#[local] Instance keeps_accounts_preorder : PreOrder keeps_accounts.
Proof.
  split.
  - by intros d.
  - intros d1 d2 d3 (A1 & C1 & E1) (A2 & C2 & E2).
    split_and!; [congruence..|auto].
Qed.

Lemma keeps_store_current_expenses l d : keeps_accounts d (store_current_expenses l d).
Proof.
  split_and!; [done..|]. intros a Ha. simpl.
  rewrite lookup_insert_is_Some. destruct (decide (current_account d = a)); auto.
Qed.

Lemma keeps_get_current_expenses d : keeps_accounts d (get_current_expenses d).2.
Proof.
  unfold get_current_expenses.
  destruct (expenses d !! current_account d); [done|].
  apply (keeps_store_current_expenses []).
Qed.

Lemma keeps_update_expense_list w : keeps_accounts (data w) (data (update_expense_list w)).
Proof. rewrite data_update_expense_list. apply keeps_get_current_expenses. Qed.

Lemma keeps_update_total w : keeps_accounts (data w) (data (update_total w)).
Proof. apply keeps_get_current_expenses. Qed.

Lemma keeps_on_add_expense now w : keeps_accounts (data w) (data (on_add_expense now w)).
Proof.
  unfold on_add_expense.
  case_decide; [done|].
  destruct (Text.float _); [|done].
  pose proof (keeps_get_current_expenses (data w)) as K.
  destruct (get_current_expenses (data w)) as [l d]. simpl in *.
  etrans; [|apply keeps_update_total].
  etrans; [|apply keeps_update_expense_list].
  simpl. rewrite data_save_data. simpl.
  etrans; [exact K|]. apply keeps_store_current_expenses.
Qed.

Lemma keeps_on_delete_expense index w :
  keeps_accounts (data w) (data (on_delete_expense index w)).
Proof.
  unfold on_delete_expense.
  pose proof (keeps_get_current_expenses (data w)) as K.
  destruct (get_current_expenses (data w)) as [l d]. simpl in *.
  case_decide; [|done].
  simpl. etrans; [|apply keeps_update_total].
  etrans; [|apply keeps_update_expense_list].
  rewrite data_save_data. simpl.
  etrans; [exact K|]. apply keeps_store_current_expenses.
Qed.

Lemma widgets_on_add_expense now w :
  account_list (on_add_expense now w) = account_list w ∧
  selected (on_add_expense now w) = selected w.
Proof.
  unfold on_add_expense. case_decide; [done|].
  destruct (Text.float _); [|done].
  destruct (get_current_expenses (data w)) as [l d]. simpl.
  match goal with |- context [update_expense_list ?x] =>
    destruct (widgets_update_expense_list x) as [-> ->] end.
  simpl. match goal with |- context [save_data ?x] =>
    by destruct (widgets_save_data x) as [-> ->] end.
Qed.

Lemma widgets_on_delete_expense index w :
  account_list (on_delete_expense index w) = account_list w ∧
  selected (on_delete_expense index w) = selected w.
Proof.
  unfold on_delete_expense.
  destruct (get_current_expenses (data w)) as [l d]. case_decide; [|done]. simpl.
  match goal with |- context [update_expense_list ?x] =>
    destruct (widgets_update_expense_list x) as [-> ->] end.
  match goal with |- context [save_data ?x] =>
    by destruct (widgets_save_data x) as [-> ->] end.
Qed.

(** ** Selecting and creating accounts *)

Lemma index_lt x l i : index x l = Some i → (i < length l)%nat.
Proof.
  unfold index. destruct (list_find _ l) as [[j y]|] eqn:E; [|done].
  intros [= <-]. apply list_find_Some in E as (E & _). by eapply lookup_lt_Some.
Qed.

Lemma index_elem_of x l : x ∈ l → is_Some (index x l).
Proof.
  intros Hx. unfold index.
  destruct (list_find_elem_of (λ y, y = x) l x Hx eq_refl) as [[i y] ->]. by eexists.
Qed.

(** [l.index(x)] right after [l.append(x)], for an [x] that was not in
    [l]. *)
Lemma index_app_new x l : x ∉ l → index x (l ++ [x]) = Some (length l).
Proof.
  intros Hx. unfold index.
  destruct (list_find _ (l ++ [x])) as [[i y]|] eqn:E.
  - apply list_find_Some in E as (E & -> & _). simpl. f_equal.
    destruct (decide (i < length l)%nat) as [Hlt|Hge].
    + rewrite lookup_app_l in E by done. by apply list_elem_of_lookup_2 in E.
    + apply lookup_lt_Some in E. rewrite length_app in E. simpl in E. lia.
  - apply list_find_None in E. rewrite Forall_app, Forall_singleton in E. by destruct E.
Qed.

Lemma on_account_changed_data w :
  data (on_account_changed w) = data w ∨
  ∃ i account, selected w = Some i ∧ accounts (data w) !! i = Some account ∧
    keeps_accounts (set_current_account account (data w))
                   (data (on_account_changed w)).
Proof.
  unfold on_account_changed.
  destruct (selected w) as [i|]; [|by left].
  destruct (accounts (data w) !! i) as [account|] eqn:E; [|by left].
  right. exists i, account. split_and!; [done..|].
  etrans; [|apply keeps_update_total].
  etrans; [|apply keeps_update_expense_list].
  by rewrite data_save_data.
Qed.

Lemma widgets_on_account_changed w :
  account_list (on_account_changed w) = account_list w ∧
  selected (on_account_changed w) = selected w ∧
  accounts (data (on_account_changed w)) = accounts (data w).
Proof.
  unfold on_account_changed.
  destruct (selected w) as [i|] eqn:S; [|done].
  destruct (accounts (data w) !! i) as [account|]; [|done]. simpl.
  destruct (widgets_update_expense_list
              (save_data (set_data (set_current_account account (data w)) w)))
    as [-> ->].
  destruct (widgets_save_data (set_data (set_current_account account (data w)) w))
    as [-> ->].
  split_and!; [done..|].
  destruct (keeps_update_expense_list
              (save_data (set_data (set_current_account account (data w)) w)))
    as (A & _).
  destruct (keeps_get_current_expenses
              (data (update_expense_list
                 (save_data (set_data (set_current_account account (data w)) w)))))
    as (A' & _).
  rewrite A', A. by rewrite data_save_data.
Qed.

Lemma widgets_dropdown_set_selected position w :
  account_list (dropdown_set_selected position w) = account_list w ∧
  selected (dropdown_set_selected position w)
  = (if decide (position < length (account_list w))%nat then Some position else None) ∧
  accounts (data (dropdown_set_selected position w)) = accounts (data w).
Proof.
  unfold dropdown_set_selected.
  set (new := if decide (position < length (account_list w))%nat
              then Some position else None).
  case_decide as E; [done|].
  by destruct (widgets_on_account_changed (set_selected new w)) as (-> & -> & ->).
Qed.

Lemma data_create_account account_name w :
  data (create_account account_name w)
  = mkData (accounts (data w) ++ [account_name]) (current_account (data w))
           (<[account_name := []]> (expenses (data w))).
Proof. unfold create_account. by rewrite data_save_data. Qed.

Lemma widgets_create_account account_name w :
  account_list (create_account account_name w) = account_list w ++ [account_name] ∧
  selected (create_account account_name w) = selected w.
Proof.
  unfold create_account.
  match goal with |- context [save_data ?x] =>
    by destruct (widgets_save_data x) as [-> ->] end.
Qed.

(** ** The invariant is preserved *)

Lemma keeps_normalized d d' : keeps_accounts d d' → normalized d → normalized d'.
Proof.
  intros (A & C & E) (I1 & I2). unfold normalized, current_in_accounts, accounts_covered.
  rewrite A, C. split; [done|]. intros a Ha. by apply E, I2.
Qed.

Lemma normalized_on_account_changed w :
  normalized (data w) → normalized (data (on_account_changed w)).
Proof.
  intros I. destruct (on_account_changed_data w) as [->|(i & a & _ & Ha & K)]; [done|].
  eapply keeps_normalized; [exact K|].
  destruct I as [_ I2]. split; [|done].
  by eapply list_elem_of_lookup_2.
Qed.

Lemma normalized_dropdown_set_selected position w :
  normalized (data w) → normalized (data (dropdown_set_selected position w)).
Proof.
  intros I. unfold dropdown_set_selected. case_decide; [done|].
  by apply normalized_on_account_changed.
Qed.

Lemma normalized_create_account account_name w :
  normalized (data w) → normalized (data (create_account account_name w)).
Proof.
  intros (I1 & I2). rewrite data_create_account.
  unfold normalized, current_in_accounts, accounts_covered in *. simpl. split.
  - set_solver.
  - intros a [Ha| ->%list_elem_of_singleton]%elem_of_app;
      rewrite lookup_insert_is_Some; [|by left].
    destruct (decide (account_name = a)); auto.
Qed.

Lemma normalized_step w a : normalized (data w) → normalized (data (step w a)).
Proof.
  intros I. destruct a as [response text|position|amount_text payee_text now|index]; simpl.
  - unfold on_add_account_response.
    case_decide as Hr; [|done]. case_decide as Hc; [|done].
    pose proof (normalized_create_account (Text.strip text) w I) as I'.
    destruct (index _ _); [|done].
    by apply normalized_dropdown_set_selected.
  - case_decide; [|done]. by apply normalized_dropdown_set_selected.
  - by apply (keeps_normalized _ _ (keeps_on_add_expense now (set_entries _ _ w))).
  - by apply (keeps_normalized _ _ (keeps_on_delete_expense index w)).
Qed.

Lemma normalized_run acts w : normalized (data w) → normalized (data (run acts w)).
Proof.
  revert w. induction acts as [|a acts IH]; intros w I; [done|].
  apply IH. by apply normalized_step.
Qed.

(** The only change a step makes to [accounts] is to append a name that
    was not in it. *)
Lemma accounts_step w a :
  accounts (data (step w a)) = accounts (data w) ∨
  ∃ account_name, (account_name ∉ accounts (data w)) ∧
    accounts (data (step w a)) = accounts (data w) ++ [account_name].
Proof.
  destruct a as [response text|position|amount_text payee_text now|index]; simpl.
  - unfold on_add_account_response.
    case_decide as Hr; [|by left]. case_decide as Hc; [|by left].
    destruct Hc as [_ Hn]. right. exists (Text.strip text). split; [done|].
    destruct (index _ _).
    + destruct (widgets_dropdown_set_selected n (create_account (Text.strip text) w))
        as (_ & _ & ->).
      by rewrite data_create_account.
    + by rewrite data_create_account.
  - left. case_decide; [|done].
    by destruct (widgets_dropdown_set_selected position w) as (_ & _ & ->).
  - left. by destruct (keeps_on_add_expense now (set_entries amount_text payee_text w))
      as (-> & _).
  - left. by destruct (keeps_on_delete_expense index w) as (-> & _).
Qed.

Lemma NoDup_accounts_step w a :
  NoDup (accounts (data (step w a))) ↔ NoDup (accounts (data w)).
Proof.
  destruct (accounts_step w a) as [->|(account_name & Hn & ->)]; [done|].
  rewrite NoDup_app. split; [by intros (H & _)|]. intros H.
  split_and!; [done| |apply NoDup_singleton].
  by intros x Hx ->%list_elem_of_singleton.
Qed.

Lemma NoDup_accounts_run acts w :
  NoDup (accounts (data (run acts w))) ↔ NoDup (accounts (data w)).
Proof.
  revert w. induction acts as [|a acts IH]; intros w; [done|].
  simpl. rewrite IH. apply NoDup_accounts_step.
Qed.

(** C1 (invariant preservation), as the code has it.  Whatever the user
    does with the window (closing the account dialog with any response
    and text, picking a row of the dropdown, submitting any two entry
    texts, pressing a delete button with any index), and in whatever
    order, a document that has (a) the current account among the accounts
    and (b) an expense list for every account, which is what [load_data]
    establishes, still has both afterwards.  As for (c), no account name
    twice: the handlers add no name that is there already and remove
    none, so it holds afterwards exactly when it held before. *)
Theorem invariant_preserved (acts : list action) (w : Window) :
  normalized (data w) →
  current_in_accounts (data (run acts w)) ∧
  accounts_covered (data (run acts w)) ∧
  (NoDup (accounts (data (run acts w))) ↔ NoDup (accounts (data w))).
Proof.
  intros I. destruct (normalized_run acts w I) as [I1 I2].
  split_and!; [done..|]. apply NoDup_accounts_run.
Qed.

Lemma invariant_preserved_witness :
  invariant
    (data (run [Respond "add" " Cash "; AddExpense "12,50" "Coffee Shop" "2026-01-15 09:30";
                Respond "add" "Cash"; SelectAccount 0; DeleteExpense 3;
                AddExpense "abc" "Bakery" "2026-01-16 12:00"; DeleteExpense 0]
               fresh_window)).
Proof.
  assert (normalized (data fresh_window)) as I.
  { split.
    - apply list_elem_of_singleton. reflexivity.
    - intros a ->%list_elem_of_singleton. by eexists. }
  destruct (invariant_preserved
              [Respond "add" " Cash "; AddExpense "12,50" "Coffee Shop" "2026-01-15 09:30";
               Respond "add" "Cash"; SelectAccount 0; DeleteExpense 3;
               AddExpense "abc" "Bakery" "2026-01-16 12:00"; DeleteExpense 0]
              fresh_window I) as (Ia & Ib & Ic).
  split_and!; [exact Ia|exact Ib|]. apply Ic, NoDup_singleton.
Defined.

(** C1 as the specification words it fails: [load_data] takes the accounts
    of the file as they are, so a file that names an account twice gives
    a window whose document has (a) and (b) but not (c), and the name is
    still there twice after any sequence of actions. *)
Lemma duplicate_account_survives :
  let file := JObj [("accounts", JArr [JStr "A"; JStr "A"])] in
  let w := mkWindow (mkData ["A"; "A"] "A" {["A" := []]})
                    (Some file) true ["A"; "A"] (Some 0%nat) [] [] "" "" [] in
  init (Some file) true = Some (Ok w) ∧
  normalized (data w) ∧
  ¬ NoDup (accounts (data w)) ∧
  accounts (data (run [AddExpense "3" "Bakery" "2026-01-16 12:00"; Respond "add" "B";
                       SelectAccount 0; DeleteExpense 0] w))
  = ["A"; "A"; "B"] ∧
  ∀ acts, ¬ NoDup (accounts (data (run acts w))).
Proof.
  cbv zeta.
  assert (¬ NoDup ["A"; "A"]) as Hdup.
  { intros [Hin _]%NoDup_cons. apply Hin. by left. }
  split_and!.
  - reflexivity.
  - split.
    + by left.
    + intros a Ha. assert (a = "A") as ->.
      { by repeat apply elem_of_cons in Ha as [?|Ha]; [..|by apply elem_of_nil in Ha]. }
      by eexists.
  - exact Hdup.
  - vm_compute. reflexivity.
  - intros acts. by rewrite NoDup_accounts_run.
Qed.

(** ** The dropdown stays in step with the accounts *)

Lemma in_sync_dropdown_set_selected position w :
  (position < length (account_list w))%nat →
  account_list w = accounts (data w) →
  in_sync (dropdown_set_selected position w).
Proof.
  intros Hp Ha. unfold in_sync.
  destruct (widgets_dropdown_set_selected position w) as (-> & -> & ->).
  split; [done|]. exists position. by rewrite decide_True.
Qed.

Lemma in_sync_step w a : in_sync w → in_sync (step w a).
Proof.
  intros [Ha (i & Hs & Hi)].
  destruct a as [response text|position|amount_text payee_text now|index]; simpl.
  - unfold on_add_account_response.
    case_decide as Hr; [|by split; eauto].
    case_decide as Hc; [|by split; eauto]. destruct Hc as [_ Hn].
    rewrite data_create_account. simpl. rewrite index_app_new by done.
    apply in_sync_dropdown_set_selected.
    + unfold create_account.
      match goal with |- context [save_data ?x] =>
        destruct (widgets_save_data x) as [-> _] end.
      simpl. rewrite length_app, Ha. simpl. lia.
    + rewrite data_create_account. unfold create_account.
      match goal with |- context [save_data ?x] =>
        destruct (widgets_save_data x) as [-> _] end.
      simpl. by rewrite Ha.
  - case_decide; [|by split; eauto]. by apply in_sync_dropdown_set_selected.
  - destruct (widgets_on_add_expense now (set_entries amount_text payee_text w))
      as [A S].
    destruct (keeps_on_add_expense now (set_entries amount_text payee_text w))
      as (A' & _).
    unfold in_sync. rewrite A, S, A'. split; eauto.
  - destruct (widgets_on_delete_expense index w) as [A S].
    destruct (keeps_on_delete_expense index w) as (A' & _).
    unfold in_sync. rewrite A, S, A'. split; eauto.
Qed.

Lemma in_sync_run acts w : in_sync w → in_sync (run acts w).
Proof.
  revert w. induction acts as [|a acts IH]; intros w I; [done|].
  apply IH. by apply in_sync_step.
Qed.

(** ** Normalization *)

Lemma ensure_expense_lists_lookup (l : list string) (e : gmap string (list Expense)) a :
  is_Some (e !! a) → foldl ensure_expense_list e l !! a = e !! a.
Proof.
  revert e. induction l as [|b l IH]; intros e Ha; [done|]. simpl.
  unfold ensure_expense_list at 2.
  destruct (e !! b) eqn:E; [by apply IH|].
  rewrite IH.
  - apply lookup_insert_ne. intros ->. rewrite E in Ha. by destruct Ha.
  - rewrite lookup_insert_is_Some. destruct (decide (b = a)); auto.
Qed.

Lemma ensure_expense_lists_covered (l : list string) (e : gmap string (list Expense)) a :
  a ∈ l → is_Some (foldl ensure_expense_list e l !! a).
Proof.
  revert e. induction l as [|b l IH]; intros e Ha; [by apply elem_of_nil in Ha|].
  simpl. destruct (decide (a = b)) as [->|Hne].
  - rewrite ensure_expense_lists_lookup; unfold ensure_expense_list;
      destruct (e !! b) eqn:E; rewrite ?E, ?lookup_insert_eq; eauto.
  - apply IH. apply elem_of_cons in Ha as [?|?]; done.
Qed.

Lemma ensure_expense_lists_id (l : list string) (e : gmap string (list Expense)) :
  (∀ a, a ∈ l → is_Some (e !! a)) → foldl ensure_expense_list e l = e.
Proof.
  induction l as [|b l IH]; intros H; [done|]. simpl.
  unfold ensure_expense_list at 2.
  destruct (H b) as [x ->]; [by left|].
  apply IH. intros a Ha. apply H. by right.
Qed.

(** A document with (a) and (b) is left as it is. *)
Lemma normalize_fixed d :
  current_in_accounts d → accounts_covered d → normalize d = Ok d.
Proof.
  intros Hc Ha. unfold normalize. rewrite decide_True by done. simpl.
  rewrite ensure_expense_lists_id by done. by rewrite set_expenses_id.
Qed.

(** What normalization returns has (a) and (b), and the accounts it was
    given. *)
Lemma normalize_Ok d d' :
  normalize d = Ok d' →
  current_in_accounts d' ∧ accounts_covered d' ∧ accounts d' = accounts d.
Proof.
  unfold normalize. case_decide as Hc; simpl.
  - intros [= <-]. split_and!; [done| |done].
    intros a Ha. by apply ensure_expense_lists_covered.
  - destruct (accounts d !! 0%nat) as [first|] eqn:E; simpl; [|done].
    intros [= <-]. split_and!; [|intros a Ha; by apply ensure_expense_lists_covered|done].
    by eapply list_elem_of_lookup_2.
Qed.

Lemma normalize_Raise d e : normalize d = Raise e ↔ e = IndexError ∧ accounts d = [].
Proof.
  unfold normalize. case_decide as Hc; simpl.
  - split; [done|]. intros [_ E]. rewrite E in Hc. by apply elem_of_nil in Hc.
  - destruct (accounts d) as [|first l]; simpl; [|by split; [|intros [_ ?]]].
    split; [by intros [= <-]|by intros [-> _]].
Qed.

(** C9 (normalization is idempotent).  The two normalization statements
    of [load_data], run a second time on what they returned, return it
    unchanged; on a document with no accounts they raise both times and
    write nothing.  So running them twice gives the same outcome, and
    leaves the same document, as running them once. *)
Theorem normalize_idempotent (d : Data) :
  result_bind (normalize d) normalize = normalize d ∧
  normalize_state (normalize_state d) = normalize_state d.
Proof.
  unfold normalize_state.
  destruct (normalize d) as [d'|e] eqn:E; simpl.
  - apply normalize_Ok in E as (Hc & Ha & _).
    by rewrite normalize_fixed.
  - by rewrite E.
Qed.

(** C10 (the first-element access).  The normalization statements raise
    IndexError exactly when the accounts list is empty.  A file whose
    object has ["accounts": []] is merged as it is, whatever the other
    fields are, so [load_data] ends in that IndexError. *)
Theorem empty_accounts_raise (kvs : list (string * json)) (d0 d1 : Data) :
  Json.lookup "accounts" kvs = Some (JArr []) →
  load_merge (JObj kvs) d0 = Some d1 →
  accounts d1 = [] ∧
  load_data (Some (JObj kvs)) d0 = Some (Raise IndexError) ∧
  ∀ d, normalize d = Raise IndexError ↔ accounts d = [].
Proof.
  intros Hk Hm.
  assert (accounts d1 = []) as Ha.
  { unfold load_merge in Hm. rewrite Hk in Hm. simpl in Hm.
    destruct (Json.lookup "current_account" kvs) as [v|]; simpl in Hm.
    - destruct (Json.as_string v); simpl in Hm; [|done].
      destruct (Json.lookup "expenses" kvs) as [v'|]; simpl in Hm.
      + destruct (Json.as_expenses v'); simpl in Hm; [|done]. by injection Hm as <-.
      + by injection Hm as <-.
    - destruct (Json.lookup "expenses" kvs) as [v'|]; simpl in Hm.
      + destruct (Json.as_expenses v'); simpl in Hm; [|done]. by injection Hm as <-.
      + by injection Hm as <-. }
  split_and!; [done| |].
  - unfold load_data. rewrite Hm. simpl. f_equal. by apply normalize_Raise.
  - intros d. rewrite normalize_Raise. split; [by intros [_ ?]|by intros ?].
Qed.

Lemma empty_accounts_raise_witness :
  load_data (Some (JObj [("accounts", JArr [])])) default_data
  = Some (Raise IndexError).
Proof.
  apply (empty_accounts_raise [("accounts", JArr [])] default_data
                              (mkData [] "Default" ∅)); reflexivity.
Defined.

(** ** Writing the document and reading it back *)

Lemma as_accounts_dump (l : list string) :
  Json.as_accounts (JArr (JStr <$> l)) = Some l.
Proof.
  simpl. apply mapM_Some. induction l; constructor; done.
Qed.

Lemma as_expense_dump e : Json.as_expense (Json.dump_expense e) = Some e.
Proof. destruct e as [[z|f] p t]; reflexivity. Qed.

Lemma as_expense_list_dump (l : list Expense) :
  Json.as_expense_list (JArr (Json.dump_expense <$> l)) = Some l.
Proof.
  simpl. apply mapM_Some. induction l; constructor; [apply as_expense_dump|done].
Qed.

(** Inserting the pairs of a list from left to right, the last occurrence
    of a key winning. *)
Lemma foldl_insert_list_to_map {V} (l : list (string * V)) (m : gmap string V) :
  foldl (λ m kv, <[kv.1 := kv.2]> m) m l = list_to_map (reverse l) ∪ m.
Proof.
  revert m. induction l as [|[k v] l IH]; intros m; simpl.
  - by rewrite (left_id_L ∅ (∪)).
  - rewrite IH, reverse_cons, list_to_map_app. simpl.
    rewrite <-(assoc_L (∪)). f_equal.
    by rewrite insert_union_singleton_l, insert_empty.
Qed.

Lemma as_expenses_dump (m : gmap string (list Expense)) :
  Json.as_expenses
    (JObj ((λ kv, (kv.1, JArr (Json.dump_expense <$> kv.2))) <$> map_to_list m))
  = Some m.
Proof.
  simpl.
  assert (∀ (l : list (string * list Expense)) m0,
    foldl (λ (acc : option (gmap string (list Expense))) (kv : string * json),
             m ← acc; l ← Json.as_expense_list kv.2; Some (<[kv.1 := l]> m))
          (Some m0) ((λ kv, (kv.1, JArr (Json.dump_expense <$> kv.2))) <$> l)
    = Some (foldl (λ m kv, <[kv.1 := kv.2]> m) m0 l)) as H.
  { induction l as [|[k v] l IH]; intros m0; [done|].
    cbn [fmap list_fmap foldl fst snd mbind option_bind].
    rewrite as_expense_list_dump. apply IH. }
  rewrite H, foldl_insert_list_to_map, (right_id_L ∅ (∪)).
  rewrite <-(list_to_map_to_list m) at 2. f_equal.
  apply list_to_map_proper.
  - rewrite fmap_reverse, reverse_Permutation. apply NoDup_fst_map_to_list.
  - apply reverse_Permutation.
Qed.

Lemma load_merge_dump d d0 : load_merge (Json.dump d) d0 = Some d.
Proof.
  unfold Json.dump, load_merge.
  change (Json.lookup "accounts" _) with (Some (JArr (JStr <$> accounts d))).
  change (Json.lookup "current_account" _) with (Some (JStr (current_account d))).
  change (Json.lookup "expenses" _) with
    (Some (JObj ((λ kv, (kv.1, JArr (Json.dump_expense <$> kv.2)))
                   <$> map_to_list (expenses d)))).
  cbv beta iota. rewrite as_accounts_dump, as_expenses_dump.
  by destruct d.
Qed.

(** Whatever [load_data] returns has (a) and (b). *)
Lemma load_data_Ok file d0 d :
  load_data file d0 = Some (Ok d) → current_in_accounts d ∧ accounts_covered d.
Proof.
  unfold load_data. destruct (match file with Some _ => _ | None => _ end); simpl; [|done].
  intros [= (? & ? & _)%normalize_Ok]. done.
Qed.

Lemma load_data_dump d d0 :
  normalized d → load_data (Some (Json.dump d)) d0 = Some (Ok d).
Proof.
  intros [Hc Ha]. unfold load_data. rewrite load_merge_dump. simpl.
  by rewrite normalize_fixed.
Qed.

(** C3 (round trip).  When the file can be written and the document has
    (a) and (b), [load_data] on the file that [save_data] wrote returns
    that very document: the same accounts in the same order, the same
    current account, the same expense lists; and this whatever document
    [load_data] starts from. *)
Theorem save_load_round_trip (w : Window) (d0 : Data) :
  writable w = true →
  current_in_accounts (data w) → accounts_covered (data w) →
  load_data (data_file (save_data w)) d0 = Some (Ok (data w)).
Proof.
  intros Hw Hc Ha. unfold save_data. rewrite Hw. simpl.
  by apply load_data_dump.
Qed.

Lemma save_load_round_trip_witness :
  let e1 := mkExpense (PFloat (Finite (Qmake 25 2))) "Coffee Shop" "2026-01-15 09:30" in
  let e2 := mkExpense (PInt 3) "Bakery" "2026-01-16 12:00" in
  let d := mkData ["Default"; "Cash"] "Cash" {["Default" := [e1; e2]; "Cash" := []]} in
  let w := mkWindow d None true ["Default"; "Cash"] (Some 1%nat) [] [] "" "" [] in
  load_data (data_file (save_data w)) default_data = Some (Ok d).
Proof.
  intros e1 e2 d w. apply (save_load_round_trip w default_data).
  - reflexivity.
  - unfold current_in_accounts. simpl. set_solver.
  - intros a Ha. simpl in Ha.
    apply elem_of_cons in Ha as [->|Ha]; [by eexists|].
    apply list_elem_of_singleton in Ha as ->. by eexists.
Defined.

(** ** The legacy file format *)

(** A list of expense records has no string among its elements. *)
Lemma has_str_expenses key (l : list json) (es : list Expense) :
  mapM Json.as_expense l = Some es → Json.has_str key l = false.
Proof.
  revert es. induction l as [|j l IH]; intros es H; [done|].
  simpl in *. destruct j; try done.
  destruct (Json.as_expense (JObj kvs)); simpl in H; [|done].
  destruct (mapM Json.as_expense l) as [es'|]; [|done]. by eapply IH.
Qed.

(** C7 (legacy format).  For a file holding a bare array whose elements
    are all expense records, [load_data] at start-up returns, without
    raising, the document with the single account "Default", current, and
    the array as its expense list. *)
Theorem load_legacy_array (l : list json) (es : list Expense) :
  mapM Json.as_expense l = Some es →
  load_data (Some (JArr l)) default_data
  = Some (Ok (mkData ["Default"] "Default" {["Default" := es]})).
Proof.
  intros H. unfold load_data, load_merge.
  rewrite !(has_str_expenses _ l es H), H. reflexivity.
Qed.

Lemma load_legacy_array_witness :
  load_data
    (Some (JArr [JObj [("amount", JFloat (Finite (Qmake 25 2)));
                       ("payee", JStr "Coffee Shop");
                       ("date", JStr "2026-01-15 09:30")];
                 JObj [("date", JStr "2026-01-16 12:00");
                       ("payee", JStr "Bakery");
                       ("amount", JInt 3)]]))
    default_data
  = Some (Ok (mkData ["Default"] "Default"
       {["Default" := [mkExpense (PFloat (Finite (Qmake 25 2))) "Coffee Shop"
                                 "2026-01-15 09:30";
                       mkExpense (PInt 3) "Bakery" "2026-01-16 12:00"]]})).
Proof. apply load_legacy_array. reflexivity. Defined.

(** ** Deleting an expense *)

(** C5 (delete by index).  In a document whose current account has an
    expense list [l]: for an index outside [0, len(l)),
    [on_delete_expense] leaves the whole window, document and file
    included, as it was; for an index inside, it leaves the accounts, the
    current account and the other accounts' lists alone and replaces [l]
    by [l] without its element at that index (the elements before keep
    their positions, those after move down by one). *)
Theorem delete_expense_by_index (w : Window) (index : Z) (l : list Expense) :
  expenses (data w) !! current_account (data w) = Some l →
  (¬ (0 ≤ index < Z.of_nat (length l)) → on_delete_expense index w = w) ∧
  (0 ≤ index < Z.of_nat (length l) →
   let i := Z.to_nat index in
   let w' := on_delete_expense index w in
   accounts (data w') = accounts (data w) ∧
   current_account (data w') = current_account (data w) ∧
   expenses (data w') = <[current_account (data w) := delete i l]> (expenses (data w)) ∧
   length (delete i l) = (length l - 1)%nat ∧
   ∀ j, delete i l !! j = if decide (j < i)%nat then l !! j else l !! S j).
Proof.
  intros Hl. unfold on_delete_expense.
  rewrite (get_current_expenses_present _ _ Hl). split; intros Hi.
  - rewrite decide_False by done. apply set_data_id.
  - rewrite decide_True by done. cbv zeta.
    rewrite data_update_payee_suggestions, data_update_total, data_update_expense_list.
    rewrite data_save_data. simpl data.
    repeat (rewrite store_current_expenses_present; cbn [fst snd]). simpl.
    split_and!; [done..| |].
    + rewrite length_delete; [done|]. apply lookup_lt_is_Some_2. lia.
    + intros j. case_decide.
      * by apply list_lookup_delete_lt.
      * apply list_lookup_delete_ge. lia.
Qed.

(** Were the current account without a list, [get_current_expenses]
    would give it an empty one, and every index would be out of range. *)
Lemma on_delete_expense_absent index w :
  expenses (data w) !! current_account (data w) = None →
  on_delete_expense index w = set_data (store_current_expenses [] (data w)) w.
Proof.
  intros H. unfold on_delete_expense, get_current_expenses. rewrite H.
  rewrite decide_False; [done|]. simpl. lia.
Qed.

Lemma delete_expense_by_index_witness :
  let e1 := mkExpense (PInt 1) "a" "2026-01-01 10:00" in
  let e2 := mkExpense (PInt 2) "b" "2026-01-02 10:00" in
  let w := mkWindow (mkData ["Default"] "Default" {["Default" := [e1; e2]]})
                    None true ["Default"] (Some 0%nat) [] [] "" "" [] in
  on_delete_expense 2 w = w ∧
  on_delete_expense (-1) w = w ∧
  expenses (data (on_delete_expense 0 w)) = {["Default" := [e2]]}.
Proof.
  intros e1 e2 w.
  split_and!.
  - apply (delete_expense_by_index w 2 [e1; e2]); [reflexivity|simpl; lia].
  - apply (delete_expense_by_index w (-1) [e1; e2]); [reflexivity|simpl; lia].
  - destruct (delete_expense_by_index w 0 [e1; e2] eq_refl) as [_ H].
    destruct H as (_ & _ & -> & _); [simpl; lia|]. reflexivity.
Defined.

(** ** Adding an expense *)

Lemma on_add_expense_Some now w e l :
  new_expense (amount_entry w) (payee_entry w) now = Some e →
  expenses (data w) !! current_account (data w) = Some l →
  data (on_add_expense now w) = store_current_expenses (l ++ [e]) (data w) ∧
  expense_list (on_add_expense now w) = expense_rows (l ++ [e]) ∧
  payee_store (on_add_expense now w)
  = sorted (collect_payees (<[current_account (data w) := l ++ [e]]> (expenses (data w)))) ∧
  amount_entry (on_add_expense now w) = "" ∧ payee_entry (on_add_expense now w) = "" ∧
  dialogs (on_add_expense now w) = dialogs w.
Proof.
  unfold new_expense, on_add_expense. intros He Hl.
  case_decide; [done|].
  destruct (Text.float _) as [amount|]; [|done]. injection He as <-.
  rewrite (get_current_expenses_present _ _ Hl). cbv zeta.
  unfold update_total, update_expense_list. simpl data.
  rewrite data_save_data. simpl data.
  rewrite store_current_expenses_present. simpl.
  rewrite store_current_expenses_present. simpl.
  unfold save_data. simpl writable. by destruct (writable w).
Qed.

Lemma on_add_expense_accepted amount_text payee_text now w e l :
  new_expense amount_text payee_text now = Some e →
  expenses (data w) !! current_account (data w) = Some l →
  let w' := step w (AddExpense amount_text payee_text now) in
  accounts (data w') = accounts (data w) ∧
  current_account (data w') = current_account (data w) ∧
  expenses (data w') !! current_account (data w') = Some (l ++ [e]) ∧
  expense_list w' = expense_rows (l ++ [e]).
Proof.
  intros He Hl. simpl.
  destruct (on_add_expense_Some now (set_entries amount_text payee_text w) e l He Hl)
    as (-> & -> & _).
  split_and!; [done..| |done]. simpl. apply lookup_insert_eq.
Qed.

(** ** The rows of the expense list *)

Lemma length_expense_rows l : length (expense_rows l) = length l.
Proof. unfold expense_rows. by rewrite length_imap, length_reverse. Qed.

Lemma expense_rows_lookup (l : list Expense) (p : nat) :
  (p < length l)%nat →
  expense_rows l !! p
  = (λ e, (e, Z.of_nat (length l - 1 - p))) <$> l !! (length l - 1 - p)%nat.
Proof.
  intros Hp. unfold expense_rows.
  rewrite list_lookup_imap, reverse_lookup by done.
  replace (length l - S p)%nat with (length l - 1 - p)%nat by lia.
  destruct (l !! _); simpl; [|done]. do 2 f_equal. lia.
Qed.

(** C6 (display order).  Starting from an empty list for the current
    account, after three accepted submissions producing E1, E2, E3 in
    that order, the stored list is [E1; E2; E3] and the rows shown, also
    after a further [update_expense_list], are E3, E2, E1 carrying the
    indices 2, 1, 0.  For a list of any length, the row at display
    position [p] shows the element at storage index [len - 1 - p] and
    carries that index. *)
Theorem display_newest_first
    (w : Window) (a1 p1 t1 a2 p2 t2 a3 p3 t3 : string) (e1 e2 e3 : Expense) :
  expenses (data w) !! current_account (data w) = Some [] →
  new_expense a1 p1 t1 = Some e1 →
  new_expense a2 p2 t2 = Some e2 →
  new_expense a3 p3 t3 = Some e3 →
  let w' := run [AddExpense a1 p1 t1; AddExpense a2 p2 t2; AddExpense a3 p3 t3] w in
  expenses (data w') !! current_account (data w') = Some [e1; e2; e3] ∧
  expense_list w' = [(e3, 2); (e2, 1); (e1, 0)] ∧
  expense_list (update_expense_list w') = [(e3, 2); (e2, 1); (e1, 0)] ∧
  ∀ (l : list Expense) (p : nat), (p < length l)%nat →
    expense_rows l !! p
    = (λ e, (e, Z.of_nat (length l - 1 - p))) <$> l !! (length l - 1 - p)%nat.
Proof.
  intros H0 H1 H2 H3. unfold run. cbn [foldl].
  set (w1 := step w (AddExpense a1 p1 t1)).
  destruct (on_add_expense_accepted a1 p1 t1 w e1 [] H1 H0) as (_ & _ & L1 & _).
  fold w1 in L1. cbv zeta in L1.
  set (w2 := step w1 (AddExpense a2 p2 t2)).
  destruct (on_add_expense_accepted a2 p2 t2 w1 e2 _ H2 L1) as (_ & _ & L2 & _).
  fold w2 in L2. cbv zeta in L2.
  set (w3 := step w2 (AddExpense a3 p3 t3)).
  destruct (on_add_expense_accepted a3 p3 t3 w2 e3 _ H3 L2) as (_ & _ & L3 & R3).
  fold w3 in L3, R3. cbv zeta in L3, R3. cbv zeta.
  split_and!; [exact L3|exact R3| |apply expense_rows_lookup].
  unfold update_expense_list. by rewrite (get_current_expenses_present _ _ L3).
Qed.

Lemma display_newest_first_witness :
  let e1 := mkExpense (PFloat (Finite (Qmake 25 2))) "Coffee Shop" "2026-01-15 09:30" in
  let e2 := mkExpense (PFloat (Finite (Qmake 3 1))) "Bakery" "2026-01-16 12:00" in
  let e3 := mkExpense (PFloat (Finite (Qmake (-7) 4))) "Refund" "2026-01-17 18:45" in
  expense_list
    (run [AddExpense "12,50" " Coffee Shop" "2026-01-15 09:30";
          AddExpense " 3 " "Bakery" "2026-01-16 12:00";
          AddExpense "-1.75" "Refund " "2026-01-17 18:45"] fresh_window)
  = [(e3, 2); (e2, 1); (e1, 0)].
Proof.
  intros e1 e2 e3.
  apply (display_newest_first fresh_window
           "12,50" " Coffee Shop" "2026-01-15 09:30"
           " 3 " "Bakery" "2026-01-16 12:00"
           "-1.75" "Refund " "2026-01-17 18:45" e1 e2 e3); reflexivity.
Defined.

(** ** Validation and amount parsing *)

Lemma on_add_expense_empty now w :
  Text.strip (amount_entry w) = "" ∨ Text.strip (payee_entry w) = "" →
  on_add_expense now w = w.
Proof. intros H. unfold on_add_expense. by rewrite decide_True. Qed.

Lemma on_add_expense_invalid now w e :
  Text.strip (amount_entry w) ≠ "" → Text.strip (payee_entry w) ≠ "" →
  Text.float (Text.replace "," "." (Text.strip (amount_entry w))) = Raise e →
  on_add_expense now w = present_dialog "Invalid Amount" w.
Proof.
  intros Ha Hp Hf. unfold on_add_expense.
  rewrite decide_False by (by intros [?|?]). by rewrite Hf.
Qed.

Lemma dialogs_save_data w : dialogs (save_data w) = dialogs w.
Proof. unfold save_data. by destruct (writable w). Qed.

Lemma dialogs_update_expense_list w : dialogs (update_expense_list w) = dialogs w.
Proof. unfold update_expense_list. by destruct (get_current_expenses (data w)). Qed.

Lemma on_add_expense_valid now w amount :
  Text.strip (amount_entry w) ≠ "" → Text.strip (payee_entry w) ≠ "" →
  Text.float (Text.replace "," "." (Text.strip (amount_entry w))) = Ok amount →
  (get_current_expenses (data (on_add_expense now w))).1
  = (get_current_expenses (data w)).1
    ++ [mkExpense (PFloat amount) (Text.strip (payee_entry w)) now] ∧
  dialogs (on_add_expense now w) = dialogs w.
Proof.
  intros Ha Hp Hf. unfold on_add_expense.
  rewrite decide_False by (by intros [?|?]). rewrite Hf.
  destruct (get_current_expenses (data w)) as [l d]. cbv zeta. split.
  - unfold set_entries, update_total. cbn [data].
    rewrite data_update_expense_list, data_update_payee_suggestions, data_save_data.
    cbn [data set_data].
    by repeat (rewrite store_current_expenses_present; cbn [fst snd]).
  - cbn [set_entries dialogs update_total set_data].
    rewrite dialogs_update_expense_list. cbn [update_payee_suggestions set_payee_store dialogs].
    by rewrite dialogs_save_data.
Qed.

(** C4 (validation and amount parsing), as the code has it.  If the
    amount text or the payee text is empty once stripped of white space,
    [on_add_expense] returns the window as it was: nothing added, nothing
    saved, no dialog.  With both non-empty, [float], applied to the
    amount text with its commas turned into dots, decides.  When it
    returns a value, the expense with that amount is appended to the
    current account's list and no dialog is presented; for "12,50" as for
    "12.50" the value is 12.5 (25/2).  When it raises ValueError, as for
    "abc", the only effect is the "Invalid Amount" dialog, the document
    being as before.  [float] rejects what is outside its grammar, and
    its grammar has more than the decimal numbers: for the words nan, inf
    and infinity, signed or not and in either case of letters, and for a
    number past the range of a float, such as 1e999, it returns nan or an
    infinity, and the expense with that amount is added. *)
Theorem add_expense_validation (w : Window) (now : string) :
  let amount_text := Text.strip (amount_entry w) in
  let payee_text := Text.strip (payee_entry w) in
  let parsed := Text.float (Text.replace "," "." amount_text) in
  (amount_text = "" ∨ payee_text = "" → on_add_expense now w = w) ∧
  (payee_text ≠ "" →
   (∀ amount, amount_text ≠ "" → parsed = Ok amount →
    new_expense (amount_entry w) (payee_entry w) now
    = Some (mkExpense (PFloat amount) payee_text now) ∧
    (get_current_expenses (data (on_add_expense now w))).1
    = (get_current_expenses (data w)).1 ++ [mkExpense (PFloat amount) payee_text now] ∧
    dialogs (on_add_expense now w) = dialogs w) ∧
   (amount_text ≠ "" → parsed = Raise ValueError →
    on_add_expense now w = present_dialog "Invalid Amount" w ∧
    data (on_add_expense now w) = data w ∧
    dialogs (on_add_expense now w) = dialogs w ++ ["Invalid Amount"])) ∧
  (amount_entry w = "12,50" ∨ amount_entry w = "12.50" →
   amount_text ≠ "" ∧ parsed = Ok (Finite (Qmake 25 2))) ∧
  (amount_entry w = "abc" → amount_text ≠ "" ∧ parsed = Raise ValueError) ∧
  (amount_entry w ∈ ["nan"; "NaN"; "-nan"; " nan "] →
   amount_text ≠ "" ∧ parsed = Ok NaN) ∧
  (amount_entry w ∈ ["inf"; "+inf"; "Infinity"; "INF"; "1e999"] →
   amount_text ≠ "" ∧ parsed = Ok (Inf false)) ∧
  (amount_entry w ∈ ["-inf"; "-Infinity"; "-1e999"] →
   amount_text ≠ "" ∧ parsed = Ok (Inf true)).
Proof.
  cbv zeta. split_and!.
  - apply on_add_expense_empty.
  - intros Hp. split.
    + intros amount Ha Hf. split; [|by apply on_add_expense_valid].
      unfold new_expense. rewrite decide_False by (by intros [?|?]). by rewrite Hf.
    + intros Ha Hf. by rewrite (on_add_expense_invalid now w ValueError).
  - intros [-> | ->]; split; (vm_compute; (discriminate || reflexivity)).
  - intros ->. split; (vm_compute; (discriminate || reflexivity)).
  - intros H. repeat apply elem_of_cons in H as [->|H];
      [split; (vm_compute; (discriminate || reflexivity))..|by apply elem_of_nil in H].
  - intros H. repeat apply elem_of_cons in H as [->|H];
      [split; (vm_compute; (discriminate || reflexivity))..|by apply elem_of_nil in H].
  - intros H. repeat apply elem_of_cons in H as [->|H];
      [split; (vm_compute; (discriminate || reflexivity))..|by apply elem_of_nil in H].
Qed.

Lemma add_expense_validation_witness :
  let typed amount_text payee_text := set_entries amount_text payee_text fresh_window in
  let now := "2026-01-15 09:30" in
  on_add_expense now (typed "  " "Coffee Shop") = typed "  " "Coffee Shop" ∧
  on_add_expense now (typed "12,50" "") = typed "12,50" "" ∧
  (* a payee of U+00A0 and U+2003 *)
  on_add_expense now (typed "12,50" (Text.text [160; 8195]))
  = typed "12,50" (Text.text [160; 8195]) ∧
  Text.float (Text.replace "," "." (Text.strip "12,50")) = Ok (Finite (Qmake 25 2)) ∧
  Text.float (Text.replace "," "." (Text.strip "12.50")) = Ok (Finite (Qmake 25 2)) ∧
  (get_current_expenses (data (on_add_expense now (typed "12,50" "Coffee Shop")))).1
  = [mkExpense (PFloat (Finite (Qmake 25 2))) "Coffee Shop" now] ∧
  data (on_add_expense now (typed "abc" "Coffee Shop")) = data fresh_window ∧
  dialogs (on_add_expense now (typed "abc" "Coffee Shop")) = ["Invalid Amount"] ∧
  (get_current_expenses (data (on_add_expense now (typed "-inf" "Coffee Shop")))).1
  = [mkExpense (PFloat (Inf true)) "Coffee Shop" now].
Proof.
  intros typed now.
  assert (Text.strip "Coffee Shop" ≠ "") as Hp by (vm_compute; discriminate).
  split_and!.
  - apply (add_expense_validation (typed "  " "Coffee Shop")). by left.
  - apply (add_expense_validation (typed "12,50" "")). by right.
  - apply (add_expense_validation (typed "12,50" (Text.text [160; 8195]))). by right.
  - destruct (add_expense_validation (typed "12,50" "Coffee Shop") now)
      as (_ & _ & H & _).
    apply H. by left.
  - destruct (add_expense_validation (typed "12.50" "Coffee Shop") now)
      as (_ & _ & H & _).
    apply H. by right.
  - destruct (add_expense_validation (typed "12,50" "Coffee Shop") now)
      as (_ & H & H' & _).
    destruct (H' (or_introl eq_refl)) as [Ha Hf].
    destruct (H Hp) as [H1 _]. destruct (H1 _ Ha Hf) as (_ & -> & _). reflexivity.
  - destruct (add_expense_validation (typed "abc" "Coffee Shop") now)
      as (_ & H & _ & H' & _).
    destruct (H' eq_refl) as [Ha Hf].
    destruct (H Hp) as [_ H2]. by destruct (H2 Ha Hf) as (_ & -> & _).
  - destruct (add_expense_validation (typed "abc" "Coffee Shop") now)
      as (_ & H & _ & H' & _).
    destruct (H' eq_refl) as [Ha Hf].
    destruct (H Hp) as [_ H2]. by destruct (H2 Ha Hf) as (_ & _ & ->).
  - destruct (add_expense_validation (typed "-inf" "Coffee Shop") now)
      as (_ & H & _ & _ & _ & _ & H').
    destruct H' as [Ha Hf]; [by left|].
    destruct (H Hp) as [H1 _]. destruct (H1 _ Ha Hf) as (_ & -> & _). reflexivity.
Defined.

(** C4 as the specification words it fails: "nan" is not a number, yet
    [float] returns a value for it, so no dialog is presented and an
    expense whose amount is nan is added and saved. *)
Lemma nan_amount_is_added :
  let w := set_entries "nan" "Coffee Shop" fresh_window in
  let w' := on_add_expense "2026-01-15 09:30" w in
  Text.strip (amount_entry w) ≠ "" ∧ Text.strip (payee_entry w) ≠ "" ∧
  Text.float (Text.replace "," "." (Text.strip (amount_entry w))) = Ok NaN ∧
  dialogs w' = [] ∧
  expenses (data w') !! "Default"
  = Some [mkExpense (PFloat NaN) "Coffee Shop" "2026-01-15 09:30"] ∧
  data_file w' = Some (Json.dump (data w')) ∧
  expenses (data w) !! "Default" = Some [].
Proof. cbv zeta. split_and!; vm_compute; (discriminate || reflexivity). Qed.

(** ** Payee suggestions *)

Lemma elem_of_collect_payees (e : gmap string (list Expense)) (p : string) :
  p ∈ collect_payees e ↔
  ∃ account l x, e !! account = Some l ∧ x ∈ l ∧ payee x = p.
Proof.
  unfold collect_payees. rewrite elem_of_list_to_set, list_elem_of_join. split.
  - intros (ps & Hp & Hps).
    apply list_elem_of_fmap in Hps as ([account l] & -> & Hkv).
    apply elem_of_map_to_list in Hkv.
    apply list_elem_of_fmap in Hp as (x & -> & Hx). simpl in *. eauto 6.
  - intros (account & l & x & Hl & Hx & <-).
    exists (payee <$> l). split.
    + apply list_elem_of_fmap. eauto.
    + apply list_elem_of_fmap. exists (account, l). split; [done|].
      by apply elem_of_map_to_list.
Qed.

Lemma elem_of_sorted (s : gset string) (p : string) : p ∈ sorted s ↔ p ∈ s.
Proof. unfold sorted. by rewrite merge_sort_Permutation, elem_of_elements. Qed.

Lemma NoDup_sorted (s : gset string) : NoDup (sorted s).
Proof. unfold sorted. rewrite merge_sort_Permutation. apply NoDup_elements. Qed.

Lemma StronglySorted_sorted (s : gset string) : StronglySorted String.le (sorted s).
Proof. apply (StronglySorted_merge_sort _). Qed.

(** C8 (payee suggestions).  The rows [update_payee_suggestions] puts in
    the payee store are exactly the payees of the expenses of all
    accounts, current or not; no string occurs twice among them
    (strings that differ, if only in case, are different payees); and
    they are in lexicographic order.  The document is not touched. *)
Theorem payee_suggestions (w : Window) :
  let s := payee_store (update_payee_suggestions w) in
  (∀ p, p ∈ s ↔
        ∃ account l e, expenses (data w) !! account = Some l ∧ e ∈ l ∧ payee e = p) ∧
  NoDup s ∧
  StronglySorted String.le s ∧
  data (update_payee_suggestions w) = data w.
Proof.
  simpl. split_and!; [|apply NoDup_sorted|apply StronglySorted_sorted|done].
  intros p. by rewrite elem_of_sorted, elem_of_collect_payees.
Qed.

(** The same payee in two accounts is suggested once; payees that differ
    in case only are two suggestions, capitals first. *)
Example payee_suggestions_coffee_shop :
  let e1 := mkExpense (PFloat (Finite (Qmake 25 2))) "Coffee Shop" "2026-01-15 09:30" in
  let e2 := mkExpense (PFloat (Finite (Qmake 3 1))) "Coffee Shop" "2026-01-16 08:10" in
  let e3 := mkExpense (PFloat (Finite (Qmake 3 1))) "coffee shop" "2026-01-17 08:10" in
  sorted (collect_payees {["Default" := [e1]; "Cash" := [e2]]}) = ["Coffee Shop"] ∧
  sorted (collect_payees {["Default" := [e3; e1]; "Cash" := [e2]]})
  = ["Coffee Shop"; "coffee shop"].
Proof. split; vm_compute; reflexivity. Qed.

(** ** Adding an account *)

Lemma init_fresh_window : init None true = Some (Ok fresh_window).
Proof. reflexivity. Qed.

Lemma fresh_window_invariant : invariant (data fresh_window).
Proof.
  split_and!.
  - apply list_elem_of_singleton. reflexivity.
  - intros a ->%list_elem_of_singleton. by eexists.
  - apply NoDup_singleton.
Qed.

Lemma fresh_window_in_sync : in_sync fresh_window.
Proof. split; [done|]. exists 0%nat. split; [done|]. simpl. lia. Qed.

(** C2 (creating an account), as the code has it.  For a text whose
    stripped form is a non-empty name not yet among the accounts, and a
    dropdown in step with the accounts: the handler appends the name to
    the accounts and gives it an empty expense list, the current account
    being untouched in the document it saves at that point; it then
    selects the new row of the dropdown, which runs [on_account_changed]
    and makes the new account the current one. *)
Theorem add_account_selects_it (w : Window) (text : string) :
  Text.strip text ≠ "" →
  Text.strip text ∉ accounts (data w) →
  in_sync w →
  let account_name := Text.strip text in
  let saved := create_account account_name w in
  let w' := on_add_account_response "add" text w in
  data saved = mkData (accounts (data w) ++ [account_name])
                      (current_account (data w))
                      (<[account_name := []]> (expenses (data w))) ∧
  (writable w = true → data_file saved = Some (Json.dump (data saved))) ∧
  w' = on_account_changed (set_selected (Some (length (accounts (data w)))) saved) ∧
  data w' = mkData (accounts (data w) ++ [account_name])
                   account_name
                   (<[account_name := []]> (expenses (data w))) ∧
  selected w' = Some (length (accounts (data w))).
Proof.
  intros Hne Hnew [Hlist (i & Hsel & Hi)]. cbv zeta.
  set (account_name := Text.strip text) in *.
  set (n := length (accounts (data w))).
  assert (on_add_account_response "add" text w
          = on_account_changed (set_selected (Some n) (create_account account_name w)))
    as Hw'.
  { unfold on_add_account_response.
    rewrite decide_True by done. rewrite decide_True by done.
    fold account_name. rewrite data_create_account. cbn [accounts].
    rewrite index_app_new by done. fold n.
    unfold dropdown_set_selected.
    destruct (widgets_create_account account_name w) as [-> ->].
    rewrite (decide_True (Some n) None)
      by (unfold n; rewrite length_app, Hlist; simpl; lia).
    rewrite decide_False; [done|].
    rewrite Hsel. intros [= ->]. rewrite Hlist in Hi. unfold n in Hi. lia. }
  split_and!.
  - apply data_create_account.
  - intros Hwr. unfold create_account, save_data. simpl writable. by rewrite Hwr.
  - exact Hw'.
  - rewrite Hw'. unfold on_account_changed. cbn [selected set_selected data].
    rewrite data_create_account. cbn [accounts].
    rewrite list_lookup_middle by done.
    rewrite data_update_total, data_update_expense_list, data_save_data.
    cbn [data set_data set_current_account accounts current_account expenses].
    unfold set_current_account. cbn [accounts expenses].
    by repeat (rewrite get_current_expenses_created; cbn [snd]).
  - rewrite Hw'.
    by destruct (widgets_on_account_changed
                   (set_selected (Some n) (create_account account_name w)))
      as (_ & -> & _).
Qed.

Lemma add_account_selects_it_witness :
  data (on_add_account_response "add" "  Cash " fresh_window)
  = mkData ["Default"; "Cash"] "Cash" {["Default" := []; "Cash" := []]} ∧
  data_file (create_account "Cash" fresh_window)
  = Some (Json.dump (mkData ["Default"; "Cash"] "Default"
                            {["Default" := []; "Cash" := []]})).
Proof.
  assert (Text.strip "  Cash " ≠ "") as H1 by (vm_compute; discriminate).
  assert (Text.strip "  Cash " ∉ accounts (data fresh_window)) as H2.
  { vm_compute. intros [=]%list_elem_of_singleton. }
  destruct (add_account_selects_it fresh_window "  Cash " H1 H2 fresh_window_in_sync)
    as (_ & Hfile & _ & Hdata & _).
  split.
  - rewrite Hdata. vm_compute. reflexivity.
  - change (Text.strip "  Cash ") with "Cash" in Hfile.
    rewrite (Hfile eq_refl). vm_compute. reflexivity.
Defined.

(** C2 as the specification words it fails: on the window of a first
    start, adding the account "Cash" changes the current account from
    "Default" to "Cash". *)
Lemma add_account_changes_current :
  let w := fresh_window in
  let w' := on_add_account_response "add" "Cash" w in
  Text.strip "Cash" ≠ "" ∧
  (Text.strip "Cash" ∉ accounts (data w)) ∧
  accounts (data w') = accounts (data w) ++ ["Cash"] ∧
  expenses (data w') !! "Cash" = Some [] ∧
  current_account (data w) = "Default" ∧
  current_account (data w') = "Cash" ∧
  current_account (data w') ≠ current_account (data w).
Proof.
  cbv zeta. split_and!; try (vm_compute; (reflexivity || discriminate)).
  vm_compute. intros [=]%list_elem_of_singleton.
Qed.

(** ** The window [__init__] builds *)

Lemma init_Ok file can_write w :
  init file can_write = Some (Ok w) →
  load_data file default_data = Some (Ok (data w)) ∧
  current_in_accounts (data w) ∧ accounts_covered (data w) ∧ in_sync w.
Proof.
  unfold init. destruct (load_data file default_data) as [[d|e]|] eqn:E; [|done..].
  pose proof (load_data_Ok _ _ _ E) as [Hc Ha]. simpl. intros [= <-].
  assert (normalized d) as Hn by done.
  set (w2 := setup_account_dropdown _).
  assert (data w2 = d) as D2 by done.
  assert (account_list w2 = accounts d) as L2 by done.
  assert (∃ i, selected w2 = Some i ∧ (i < length (accounts d))%nat) as S2.
  { destruct (index_elem_of _ _ Hc) as [i Hi]. exists i.
    unfold w2, setup_account_dropdown. cbn [data update_payee_suggestions set_payee_store].
    rewrite Hi. split; [done|]. by eapply index_lt. }
  destruct (widgets_update_expense_list w2) as [L3 S3].
  assert (data (update_total (update_expense_list w2)) = d) as D4.
  { rewrite data_update_total, data_update_expense_list, D2.
    by rewrite !(get_current_expenses_normalized d). }
  rewrite D4. split_and!; [done..|].
  unfold in_sync. rewrite D4. cbn [account_list selected update_total set_data].
  by rewrite L3, S3, L2.
Qed.

(** Every window the program reaches from [__init__] has (a) and (b) and
    a dropdown in step with its accounts. *)
Lemma reachable_window file can_write w acts :
  init file can_write = Some (Ok w) →
  normalized (data (run acts w)) ∧ in_sync (run acts w).
Proof.
  intros (_ & Hc & Ha & Hs)%init_Ok.
  split; [by apply normalized_run|by apply in_sync_run].
Qed.

(** Closing the program and starting it again brings back the document
    that was saved. *)
Lemma restart_same_document w can_write :
  writable w = true → normalized (data w) →
  ∃ w', init (data_file (save_data w)) can_write = Some (Ok w') ∧ data w' = data w.
Proof.
  intros Hw Hn. unfold save_data. rewrite Hw. simpl data_file.
  pose proof (load_data_dump (data w) default_data Hn) as Hl.
  destruct (init (Some (Json.dump (data w))) can_write) as [[w'|e]|] eqn:E.
  - exists w'. split; [done|].
    apply init_Ok in E as (E & _). rewrite Hl in E. by injection E as <-.
  - unfold init in E. rewrite Hl in E. done.
  - unfold init in E. rewrite Hl in E. done.
Qed.
